(** * DAppConnection: the dApp connection dialog of the wallet extension

    A shallow embedding of [src/components/DAppConnection.tsx]: the
    component's helpers ([truncateAddress], [getPermissionIcon],
    [getPermissionDescription]), its two event handlers ([handleApprove],
    [handleReject]) and the element tree it returns, followed by the
    properties of the dialog.

    Conventions.
    - A JavaScript string is a [string]; the helpers used by the component
      ([slice], [charAt], [===] on strings, template literals) only look at
      positions, so the width of a code unit plays no role.
    - The handlers run in a small monad [M] that threads the component's
      local state (the [useState] cell), records every observable effect in
      order (console, toast, state setter, calls of the parent's callbacks)
      and propagates JavaScript exceptions.
    - The element tree keeps the JSX as written: tag, props, children. *)

From Stdlib Require Import ZArith Lia Ascii String.
From stdpp Require Import base option list strings.

Local Open Scope Z_scope.

(* ===================================================================== *)
(** ** JavaScript string primitives *)
(* ===================================================================== *)

Module JS.

(** ECMAScript relative index, as used by [String.prototype.slice]:
    a negative index counts from the end, and the result is clamped to
    [0, len]. *)
Definition relative_index (len k : Z) : Z :=
  if k <? 0 then Z.max (len + k) 0 else Z.min k len.

(** [s.slice(start, end)]; [end_ = None] is the one-argument call. *)
Definition slice (s : string) (start : Z) (end_ : option Z) : string :=
  let len := Z.of_nat (String.length s) in
  let from := relative_index len start in
  let to := match end_ with
            | None => len
            | Some e => relative_index len e
            end in
  substring (Z.to_nat from) (Z.to_nat (Z.max (to - from) 0)) s.

(** [s.charAt(pos)]: the one-character string at [pos], or the empty
    string when [pos] is out of range. *)
Definition charAt (s : string) (pos : nat) : string :=
  substring pos 1 s.

(** Truthiness of a value of type [string | undefined]. *)
Definition truthy (v : option string) : bool :=
  match v with
  | None => false
  | Some s => negb (String.eqb s "")
  end.

(** [v || d] for [v : string | undefined] and a string [d]. *)
Definition or_else (v : option string) (d : string) : string :=
  match v with
  | Some s => if String.eqb s "" then d else s
  | None => d
  end.

End JS.

(* ===================================================================== *)
(** ** Data model *)
(* ===================================================================== *)

(** Modelled from the spec: the [Wallet] type is declared in
    [../types/wallet], outside the component's file.  The spec gives it
    "at minimum an address (string identifier)", and [address] is the only
    field the component reads.  [wallet_id] stands for the identity of the
    JavaScript object, so that two entries with one address can differ. *)
Record Wallet := mkWallet {
  wallet_id : nat;
  address : string
}.

(** Modelled from the spec: [DAppConnectionRequest] is declared in
    [../types/wallet] as well.  The fields are the ones the component
    reads; [appName] and [appIcon] are optional. *)
Record DAppConnectionRequest := mkRequest {
  appName : option string;
  appIcon : option string;
  origin : string;
  permissions : list string
}.

(** A promise is pending, fulfilled or rejected. *)
Inductive Settlement :=
| Pending
| Fulfilled
| Rejected (reason : string).

(** The values a callback declared to return [void] hands back: nothing,
    or (for an [async] callback) a promise with its eventual settlement. *)
Inductive JSValue :=
| Undefined
| PromiseOf (s : Settlement).

(** What a call of a parent-supplied callback does, as far as the caller
    can tell at the call: it returns a value or it throws. *)
Inductive Outcome :=
| Returns (v : JSValue)
| Throws (error : string).

(** The notification passed to [toast]. *)
Record ToastArg := mkToast {
  title : string;
  description : string;
  variant : string
}.

(** Observable effects of the handlers, in program order. *)
Inductive Effect :=
| ConsoleLog (msg : string) (args : list string)
| ConsoleError (msg : string) (error : string)
| ToastCall (t : ToastArg)
| SetIsProcessing (b : bool)
| CallOnWalletSelect (w : Wallet)
| CallOnApprove (w : Wallet)
| CallOnReject.

(** Local state of the component: the [useState(false)] cell. *)
Record State := mkState {
  isProcessing : bool
}.

Definition initialState : State := {| isProcessing := false |}.

(** The props.  A callback is given by what its call does. *)
Record DAppConnectionProps := mkProps {
  connectionRequest : DAppConnectionRequest;
  wallets : list Wallet;
  selectedWallet : option Wallet;
  onWalletSelect : Wallet -> Outcome;
  onApprove : Wallet -> Outcome;
  onReject : Outcome
}.

(* ===================================================================== *)
(** ** The handler monad *)
(* ===================================================================== *)

Inductive Completion (A : Type) :=
| Normal (a : A)
| Abrupt (error : string).
Arguments Normal {A} a.
Arguments Abrupt {A} error.

Record Run (A : Type) := mkRun {
  completion : Completion A;
  final : State;
  trace : list Effect
}.
Arguments mkRun {A}.
Arguments completion {A}.
Arguments final {A}.
Arguments trace {A}.

Definition M (A : Type) : Type := State -> Run A.

#[export] Instance M_ret : MRet M :=
  fun A (a : A) st => mkRun (Normal a) st [].

#[export] Instance M_bind : MBind M :=
  fun A B (k : A -> M B) (m : M A) st =>
    let r := m st in
    match completion r with
    | Normal a =>
        let r' := k a (final r) in
        mkRun (completion r') (final r') (trace r ++ trace r')
    | Abrupt e => mkRun (Abrupt e) (final r) (trace r)
    end.

(** One effect that cannot fail. *)
Definition emit (e : Effect) : M unit :=
  fun st => mkRun (Normal tt) st [e].

(** [throw] of an exception. *)
Definition throw {A} (error : string) : M A :=
  fun st => mkRun (Abrupt error) st [].

(** [try { body } catch (error) { handler error }]. *)
Definition try_catch {A} (body : M A) (handler : string -> M A) : M A :=
  fun st =>
    let r := body st in
    match completion r with
    | Normal a => r
    | Abrupt e =>
        let r' := handler e (final r) in
        mkRun (completion r') (final r') (trace r ++ trace r')
    end.

(** The state setter returned by [useState]. *)
Definition setIsProcessing (b : bool) : M unit :=
  fun _ => mkRun (Normal tt) {| isProcessing := b |} [SetIsProcessing b].

Definition toast (t : ToastArg) : M unit := emit (ToastCall t).

(** A call of a parent callback: the call is observed, then it returns
    its value or throws. *)
Definition call (e : Effect) (o : Outcome) : M JSValue :=
  emit e ;;
  match o with
  | Returns v => mret v
  | Throws error => throw error
  end.

(* ===================================================================== *)
(** ** Element trees *)
(* ===================================================================== *)

(** The element types the component uses: intrinsic HTML elements, the
    design-system components and the lucide-react icons. *)
Inductive Tag :=
| Html (name : string)
| Card | CardHeader | CardTitle | CardContent
| Button
| Avatar | AvatarImage | AvatarFallback
| Alert | AlertDescription
| Separator
| ExternalLink | Shield | Eye | Send | X | Check.

#[export] Instance Tag_eq_dec : EqDecision Tag.
Proof. solve_decision. Defined.

Inductive PropValue :=
| PString (s : string)
| PNumber (n : nat)
| PBool (b : bool)
| PHandler (h : M unit).

(** A JSX child: text, a number, [false] (which renders nothing) or an
    element with its props and children. *)
#[warnings="-register-all"]
Inductive Element :=
| Text (s : string)
| Number (n : nat)
| Nothing
| Elem (tag : Tag) (attrs : list (string * PropValue))
       (children : list Element).

Definition tag_of (e : Element) : option Tag :=
  match e with
  | Elem t _ _ => Some t
  | _ => None
  end.

Definition attrs_of (e : Element) : list (string * PropValue) :=
  match e with
  | Elem _ ps _ => ps
  | _ => []
  end.

Definition children_of (e : Element) : list Element :=
  match e with
  | Elem _ _ cs => cs
  | _ => []
  end.

Fixpoint assoc (name : string) (ps : list (string * PropValue))
  : option PropValue :=
  match ps with
  | [] => None
  | (k, v) :: ps' => if String.eqb k name then Some v else assoc name ps'
  end.

(** The value of prop [name] of an element. *)
Definition prop (name : string) (e : Element) : option PropValue :=
  assoc name (attrs_of e).

Definition is_tag (t : Tag) (e : Element) : bool :=
  bool_decide (tag_of e = Some t).

Definition has_prop (name : string) (e : Element) : bool :=
  match prop name e with
  | Some _ => true
  | None => false
  end.

(** A control is disabled when its [disabled] prop is [true]. *)
Definition disabled (e : Element) : bool :=
  match prop "disabled" e with
  | Some (PBool b) => b
  | _ => false
  end.

(** All nodes of a tree that satisfy [P], in document order. *)
Fixpoint find_all (P : Element -> bool) (e : Element) : list Element :=
  (if P e then [e] else []) ++
  match e with
  | Elem _ _ cs => flat_map (find_all P) cs
  | _ => []
  end.

(** The text nodes of a tree, in document order. *)
Fixpoint texts (e : Element) : list string :=
  match e with
  | Text s => [s]
  | Elem _ _ cs => flat_map texts cs
  | _ => []
  end.

(* ===================================================================== *)
(** ** The component *)
(* ===================================================================== *)

Definition truncateAddress (address : string) : string :=
  JS.slice address 0 (Some 8) +:+ "..." +:+ JS.slice address (-6) None.

Definition getPermissionIcon (permission : string) : Element :=
  if String.eqb permission "view_address" then
    Elem Eye [("className", PString "h-4 w-4")] []
  else if String.eqb permission "view_balance" then
    Elem Eye [("className", PString "h-4 w-4")] []
  else if String.eqb permission "call_methods" then
    Elem Send [("className", PString "h-4 w-4")] []
  else
    Elem Shield [("className", PString "h-4 w-4")] [].

Definition getPermissionDescription (permission : string) : string :=
  if String.eqb permission "view_address" then
    "View the address of your permitted account"
  else if String.eqb permission "view_balance" then
    "View the balance of your permitted account"
  else if String.eqb permission "call_methods" then
    "Call methods on the smart contract on behalf of your permitted account"
  else
    permission.

Section Component.

Variable props : DAppConnectionProps.

(** [handleApprove] is declared [async] but contains no [await]: its body
    runs to the end within the click, and the value returned by [onApprove]
    is dropped.  The [finally] block is empty. *)
Definition handleApprove : M unit :=
  match selectedWallet props with
  | None =>
      toast {| title := "No Wallet Selected";
               description := "Please select a wallet to connect";
               variant := "destructive" |}
  | Some selected =>
      emit (ConsoleLog "DAppConnection: Approving connection for wallet:"
                       [address selected]) ;;
      setIsProcessing true ;;
      try_catch
        (call (CallOnApprove selected) (onApprove props selected) ;;
         mret tt)
        (fun error =>
           emit (ConsoleError "Connection approval error:" error) ;;
           toast {| title := "Connection Failed";
                    description := "Failed to approve connection";
                    variant := "destructive" |} ;;
           setIsProcessing false)
  end.

Definition handleReject : M unit :=
  emit (ConsoleLog "DAppConnection: Rejecting connection" []) ;;
  setIsProcessing true ;;
  call CallOnReject (onReject props) ;;
  mret tt.

(** [selectedWallet?.address === wallet.address] *)
Definition isSelected (wallet : Wallet) : bool :=
  match selectedWallet props with
  | None => false
  | Some selected => String.eqb (address selected) (address wallet)
  end.

(** The body of [wallets.map((wallet, index) => ...)]. *)
Definition walletRow (index : nat) (wallet : Wallet) : Element :=
  Elem (Html "div")
    [("key", PString (address wallet));
     ("className",
      PString ("p-3 border rounded-lg cursor-pointer transition-colors " +:+
               (if isSelected wallet
                then "border-primary bg-primary/5"
                else "hover:bg-muted/50")));
     ("onClick",
      PHandler (call (CallOnWalletSelect wallet)
                     (onWalletSelect props wallet) ;; mret tt))]
    [Elem (Html "div")
       [("className", PString "flex items-center justify-between")]
       [Elem (Html "div") []
          [Elem (Html "div") [("className", PString "font-medium")]
             [Text "Account "; Number (index + 1)];
           Elem (Html "div")
             [("className",
               PString "text-sm text-muted-foreground font-mono")]
             [Text (truncateAddress (address wallet))]];
        (if isSelected wallet
         then Elem Check [("className", PString "h-5 w-5 text-primary")] []
         else Nothing)]].

(** The body of [connectionRequest.permissions.map((permission, index) => ...)]. *)
Definition permissionRow (index : nat) (permission : string) : Element :=
  Elem (Html "div")
    [("key", PNumber index);
     ("className", PString "flex items-start gap-3")]
    [Elem (Html "div") [("className", PString "mt-0.5")]
       [getPermissionIcon permission];
     Elem (Html "span") [("className", PString "text-sm")]
       [Text (getPermissionDescription permission)]].

Variable state : State.

(** The element tree returned by the component for the current props and
    local state. *)
Definition DAppConnection : Element :=
  Elem (Html "div")
    [("className",
      PString "min-h-screen flex items-center justify-center p-4")]
    [Elem (Html "div") [("className", PString "w-full max-w-md")]
     [Elem Card []
      [Elem CardHeader [("className", PString "text-center")]
        [Elem (Html "div")
           [("className", PString "flex justify-center mb-4")]
           [let placeholder :=
              Elem (Html "div")
                [("className",
                  PString "h-16 w-16 bg-primary rounded-full flex items-center justify-center")]
                [Elem ExternalLink
                   [("className",
                     PString "h-8 w-8 text-primary-foreground")] []] in
            match appIcon (connectionRequest props) with
            | Some icon =>
                if JS.truthy (Some icon) then
                  Elem Avatar [("className", PString "h-16 w-16")]
                    [Elem AvatarImage [("src", PString icon)] [];
                     Elem AvatarFallback []
                       [Text (JS.or_else
                                (option_map (fun name => JS.charAt name 0)
                                   (appName (connectionRequest props)))
                                "A")]]
                else placeholder
            | None => placeholder
            end];
         Elem CardTitle [("className", PString "text-xl")]
           [Text (JS.or_else (appName (connectionRequest props))
                    "Unknown App");
            Text " wants to connect"];
         Elem (Html "p")
           [("className", PString "text-sm text-muted-foreground")]
           [Text (origin (connectionRequest props))]];
       Elem CardContent [("className", PString "space-y-6")]
        [Elem (Html "div") [("className", PString "space-y-3")]
           [Elem (Html "h3") [("className", PString "font-medium")]
              [Text "Select Account"];
            Elem (Html "div")
              [("className",
                PString "max-h-[150px] w-full overflow-y-auto rounded-md border")]
              [Elem (Html "div") [("className", PString "p-2 space-y-2")]
                 (imap walletRow (wallets props))]];
         Elem Separator [] [];
         Elem (Html "div") [("className", PString "space-y-3")]
           [Elem (Html "h3") [("className", PString "font-medium")]
              [Text "This app will be able to:"];
            Elem (Html "div") [("className", PString "space-y-2")]
              (imap permissionRow (permissions (connectionRequest props)) ++
               [Elem (Html "div")
                  [("className",
                    PString "flex items-start gap-3 text-muted-foreground")]
                  [Elem X [("className", PString "h-4 w-4 mt-0.5")] [];
                   Elem (Html "span") [("className", PString "text-sm")]
                     [Text "This does not allow the app to transfer tokens"]]])];
         Elem Alert []
           [Elem Shield [("className", PString "h-4 w-4")] [];
            Elem AlertDescription []
              [Text "Only connect to websites you trust. This connection will allow the app to view your account information and request transactions."]];
         Elem (Html "div") [("className", PString "flex gap-3")]
           [Elem Button
              [("variant", PString "outline");
               ("onClick", PHandler handleReject);
               ("disabled", PBool (isProcessing state));
               ("className", PString "flex-1")]
              [Text "Cancel"];
            Elem Button
              [("onClick", PHandler handleApprove);
               ("disabled",
                PBool (isProcessing state ||
                       match selectedWallet props with
                       | None => true
                       | Some _ => false
                       end));
               ("className", PString "flex-1")]
              [Text (if isProcessing state
                     then "Connecting..." else "Connect")]]]]]].

End Component.

(** The rows of the account list: the clickable [div]s of the tree. *)
Definition is_wallet_row (e : Element) : bool :=
  is_tag (Html "div") e && has_prop "onClick" e.

Definition wallet_rows (e : Element) : list Element :=
  find_all is_wallet_row e.

(** The two action buttons. *)
Definition action_buttons (e : Element) : list Element :=
  find_all (is_tag Button) e.

(** A click on an element runs its [onClick] handler, if it has one and
    the element is not disabled. *)
Definition click (e : Element) : M unit :=
  match prop "onClick" e with
  | Some (PHandler h) => if disabled e then mret tt else h
  | _ => mret tt
  end.

(* ===================================================================== *)
(** ** Reading a trace *)
(* ===================================================================== *)

Definition toasts (tr : list Effect) : list ToastArg :=
  omap (fun e => match e with ToastCall t => Some t | _ => None end) tr.

Definition approve_calls (tr : list Effect) : list Wallet :=
  omap (fun e => match e with CallOnApprove w => Some w | _ => None end) tr.

Definition select_calls (tr : list Effect) : list Wallet :=
  omap (fun e => match e with CallOnWalletSelect w => Some w | _ => None end)
       tr.

Definition reject_calls (tr : list Effect) : nat :=
  length (omap (fun e => match e with CallOnReject => Some tt | _ => None end)
               tr).

Definition state_updates (tr : list Effect) : list bool :=
  omap (fun e => match e with SetIsProcessing b => Some b | _ => None end) tr.

(** A failed call in the wide sense: the callback throws, or it returns a
    promise that is rejected. *)
Definition throws_or_rejects (o : Outcome) : bool :=
  match o with
  | Throws _ => true
  | Returns (PromiseOf (Rejected _)) => true
  | Returns _ => false
  end.

Definition noWalletToast : ToastArg :=
  {| title := "No Wallet Selected";
     description := "Please select a wallet to connect";
     variant := "destructive" |}.

Definition connectionFailedToast : ToastArg :=
  {| title := "Connection Failed";
     description := "Failed to approve connection";
     variant := "destructive" |}.

Definition restrictionLine : string :=
  "This does not allow the app to transfer tokens".

Definition trustWarning : string :=
  "Only connect to websites you trust. This connection will allow the app to view your account information and request transactions.".

(** The selected style of a row: the highlighted border, and the check
    mark. *)
Definition has_selected_style (row : Element) : bool :=
  match prop "className" row with
  | Some (PString c) =>
      String.eqb c
        "p-3 border rounded-lg cursor-pointer transition-colors border-primary bg-primary/5"
  | _ => false
  end.

Definition has_check_mark (row : Element) : bool :=
  match find_all (is_tag Check) row with
  | [] => false
  | _ :: _ => true
  end.

(** The address of the selected wallet, if any. *)
Definition selectedAddress (p : DAppConnectionProps) : option string :=
  option_map address (selectedWallet p).

(* ===================================================================== *)
(** ** Sample inputs *)
(* ===================================================================== *)

Definition sampleAddress : string :=
  "0x1234567890abcdef1234567890abcdef12345678".

Definition wallet0 : Wallet := {| wallet_id := 0; address := sampleAddress |}.
Definition wallet1 : Wallet := {| wallet_id := 1; address := "oct8UYokvM1DR2QpEVM7oCLvJLPvJqvvvvvvvvvvvvvvvvv" |}.
(** A second entry with the address of [wallet0]. *)
Definition wallet2 : Wallet := {| wallet_id := 2; address := sampleAddress |}.

Definition sampleRequest : DAppConnectionRequest :=
  {| appName := Some "Octra Swap";
     appIcon := None;
     origin := "https://swap.example";
     permissions := ["view_address"; "call_methods"; "custom_scope"] |}.

Definition sampleProps (selected : option Wallet) (approve : Outcome)
  : DAppConnectionProps :=
  {| connectionRequest := sampleRequest;
     wallets := [wallet0; wallet1; wallet2];
     selectedWallet := selected;
     onWalletSelect := fun _ => Returns Undefined;
     onApprove := fun _ => approve;
     onReject := Returns Undefined |}.

(* ===================================================================== *)
(** ** Strings: prefixes, suffixes and [slice] *)
(* ===================================================================== *)

(** The first [n] characters of [s] (all of [s] when it is shorter). *)
Fixpoint first_chars (n : nat) (s : string) : string :=
  match n, s with
  | S n', String c s' => String c (first_chars n' s')
  | _, _ => EmptyString
  end.

(** [s] without its first [n] characters. *)
Fixpoint skip_chars (n : nat) (s : string) : string :=
  match n, s with
  | S n', String _ s' => skip_chars n' s'
  | _, _ => s
  end.

(** The last [n] characters of [s] (all of [s] when it is shorter). *)
Definition last_chars (n : nat) (s : string) : string :=
  skip_chars (String.length s - n) s.

(* ===================================================================== *)
(** ** Further selectors on the rendered tree *)
(* ===================================================================== *)

(** The number nodes of a tree, in document order. *)
Fixpoint numbers (e : Element) : list nat :=
  match e with
  | Number n => [n]
  | Elem _ _ cs => flat_map numbers cs
  | _ => []
  end.

(** The rows produced by [connectionRequest.permissions.map]: the only
    elements keyed by a number. *)
Definition has_index_key (e : Element) : bool :=
  match prop "key" e with
  | Some (PNumber _) => true
  | _ => false
  end.

Definition permission_rows (e : Element) : list Element :=
  find_all has_index_key e.

(** The icon elements a permission row can carry. *)
Definition is_permission_icon (e : Element) : bool :=
  is_tag Eye e || is_tag Send e || is_tag Shield e.

(* ===================================================================== *)
(** ** User interaction *)
(* ===================================================================== *)

(** What the user can click in the dialog. *)
Inductive UserEvent :=
| ClickAccount (index : nat)
| ClickCancel
| ClickConnect.

(** The element a click lands on: an account row by its position in the
    list, Cancel (the first action button) or Connect (the second). *)
Definition target (ev : UserEvent) (tree : Element) : option Element :=
  match ev with
  | ClickAccount index => wallet_rows tree !! index
  | ClickCancel => action_buttons tree !! 0%nat
  | ClickConnect => action_buttons tree !! 1%nat
  end.

(** One user event on the component as rendered with [p] in the current
    state: the handler found in the tree runs (see [click]: a disabled
    button does not dispatch clicks). *)
Definition dispatch (p : DAppConnectionProps) (ev : UserEvent) : M unit :=
  fun st =>
    let handler : M unit :=
      match target ev (DAppConnection p st) with
      | Some e => click e
      | None => mret tt
      end in
    handler st.

(** A sequence of user events.  Each event comes with the props of the
    render it lands on, since the parent may re-render the dialog with
    other props in between.  The state set by one event is the state of
    the next render; an exception that leaves a handler goes to the host
    and the component stays mounted. *)
Fixpoint session (evs : list (DAppConnectionProps * UserEvent)) (st : State)
  : State * list Effect :=
  match evs with
  | [] => (st, [])
  | (p, ev) :: evs' =>
      let r := dispatch p ev st in
      let rest := session evs' (final r) in
      (fst rest, trace r ++ snd rest)
  end.

(** Props whose [onApprove] always throws, for the retry scenario. *)
Definition failingProps : DAppConnectionProps :=
  sampleProps (Some wallet1) (Throws "popup closed").

(** A selection that is not an entry of the wallet list. *)
Definition strayWallet : Wallet :=
  {| wallet_id := 7; address := "octStrayStrayStrayStrayStrayStrayStrayStray" |}.

(** A request with an avatar image and a repeated permission. *)
Definition iconRequest : DAppConnectionRequest :=
  {| appName := Some "swap";
     appIcon := Some "https://swap.example/icon.png";
     origin := "https://swap.example";
     permissions := ["view_balance"; "view_balance"] |}.

Definition iconProps : DAppConnectionProps :=
  {| connectionRequest := iconRequest;
     wallets := [wallet0; wallet1];
     selectedWallet := None;
     onWalletSelect := fun _ => Returns Undefined;
     onApprove := fun _ => Returns Undefined;
     onReject := Throws "port closed" |}.

(* ===================================================================== *)
(** ** Proof automation *)
(* ===================================================================== *)

(** Evaluation of a handler on a symbolic state. *)
Ltac run_handler :=
  cbv [mbind M_bind mret M_ret emit setIsProcessing try_catch call toast
       throw completion final trace];
  cbn.

(** Case analysis on the header's icon, then evaluation of the search on
    the fixed part of the tree. *)
Ltac render_cases p :=
  unfold DAppConnection;
  destruct (appIcon (connectionRequest p)) as [?icon|];
  [destruct (JS.truthy (Some icon))|];
  simpl;
  rewrite ?flat_map_app; simpl.

(* ===================================================================== *)
(** ** Properties of [slice] *)
(* ===================================================================== *)

Lemma substring_from_0 (n : nat) (s : string) :
  substring 0 n s = first_chars n s.
Proof.
  revert s; induction n as [|n IH]; intros [|c s]; simpl; try reflexivity.
  now rewrite IH.
Qed.

Lemma substring_skip (k n : nat) (s : string) :
  substring k n s = first_chars n (skip_chars k s).
Proof.
  revert s; induction k as [|k IH]; intros s.
  - simpl. apply substring_from_0.
  - destruct s as [|c s]; simpl.
    + now destruct n.
    + apply IH.
Qed.

Lemma first_chars_all (n : nat) (s : string) :
  (String.length s <= n)%nat -> first_chars n s = s.
Proof.
  revert n; induction s as [|c s IH]; intros [|n] H; simpl in *;
    try reflexivity; try lia.
  f_equal. apply IH. lia.
Qed.

Lemma first_chars_min (n : nat) (s : string) :
  first_chars (Nat.min n (String.length s)) s = first_chars n s.
Proof.
  revert s; induction n as [|n IH]; intros [|c s]; simpl; try reflexivity.
  now rewrite IH.
Qed.

Lemma length_first_chars (n : nat) (s : string) :
  String.length (first_chars n s) = Nat.min n (String.length s).
Proof.
  revert s; induction n as [|n IH]; intros [|c s]; simpl; try reflexivity.
  now rewrite IH.
Qed.

Lemma length_skip_chars (n : nat) (s : string) :
  String.length (skip_chars n s) = (String.length s - n)%nat.
Proof.
  revert s; induction n as [|n IH]; intros [|c s]; simpl; try reflexivity.
  apply IH.
Qed.

Lemma length_last_chars (n : nat) (s : string) :
  String.length (last_chars n s) = Nat.min n (String.length s).
Proof. unfold last_chars. rewrite length_skip_chars. lia. Qed.

Lemma length_append (s t : string) :
  String.length (s +:+ t) = (String.length s + String.length t)%nat.
Proof. induction s as [|c s IH]; simpl; [reflexivity | now rewrite IH]. Qed.

Lemma get_first_chars (n i : nat) (s : string) :
  (i < n)%nat -> String.get i (first_chars n s) = String.get i s.
Proof.
  revert i s; induction n as [|n IH]; intros i s H; [lia|].
  destruct s as [|c s]; simpl; [reflexivity|].
  destruct i as [|i]; [reflexivity|]. apply IH. lia.
Qed.

Lemma get_skip_chars (k i : nat) (s : string) :
  String.get i (skip_chars k s) = String.get (k + i) s.
Proof.
  revert s; induction k as [|k IH]; intros s; simpl; [reflexivity|].
  destruct s as [|c s]; simpl; [now destruct i | apply IH].
Qed.

(** [s.slice(0, n)] is the first [n] characters. *)
Lemma slice_prefix (n : nat) (s : string) :
  JS.slice s 0 (Some (Z.of_nat n)) = first_chars n s.
Proof.
  unfold JS.slice, JS.relative_index.
  replace (0 <? 0) with false by reflexivity.
  destruct (Z.ltb_spec (Z.of_nat n) 0) as [H|_]; [lia|].
  rewrite Z.min_l by lia. simpl Z.to_nat.
  rewrite substring_from_0.
  replace (Z.to_nat _) with (Nat.min n (String.length s)) by lia.
  apply first_chars_min.
Qed.

(** [s.slice(-n)] is the last [n] characters, for [n > 0]. *)
Lemma slice_suffix (n : nat) (s : string) :
  (0 < n)%nat -> JS.slice s (- Z.of_nat n) None = last_chars n s.
Proof.
  intros Hn. unfold JS.slice, JS.relative_index, last_chars.
  destruct (Z.ltb_spec (- Z.of_nat n) 0) as [_|H]; [|lia].
  rewrite substring_skip.
  replace (Z.to_nat (Z.max (Z.of_nat (String.length s) + - Z.of_nat n) 0))
    with (String.length s - n)%nat by lia.
  apply first_chars_all. rewrite length_skip_chars. lia.
Qed.

(* ===================================================================== *)
(** ** Searching the rendered tree *)
(* ===================================================================== *)

Section Search.

Context {A : Type} (g : Element -> list A).

Lemma flat_map_imap_nil {B} (f : nat -> B -> Element) (l : list B) :
  (forall i x, g (f i x) = []) -> flat_map g (imap f l) = [].
Proof.
  revert f; induction l as [|x l IH]; intros f H; simpl; [reflexivity|].
  rewrite H. simpl. apply IH. intros i y. apply H.
Qed.

Lemma flat_map_imap_map {B} (f : nat -> B -> Element) (h : B -> list A)
    (l : list B) :
  (forall i x, g (f i x) = h x) -> flat_map g (imap f l) = flat_map h l.
Proof.
  revert f; induction l as [|x l IH]; intros f H; simpl; [reflexivity|].
  rewrite H. f_equal. apply IH. intros i y. apply H.
Qed.

Lemma flat_map_imap_one {B} (f : nat -> B -> Element) (h : nat -> B -> A)
    (l : list B) :
  (forall i x, g (f i x) = [h i x]) -> flat_map g (imap f l) = imap h l.
Proof.
  revert f h; induction l as [|x l IH]; intros f h H; simpl; [reflexivity|].
  rewrite H. simpl. f_equal. apply IH. intros i y. apply H.
Qed.

End Search.

Lemma flat_map_unit {A B} (f : A -> B) (l : list A) :
  flat_map (fun x => [f x]) l = map f l.
Proof. induction l as [|x l IH]; simpl; [reflexivity | now rewrite IH]. Qed.

Lemma getPermissionIcon_cases (permission : string) :
  exists t, getPermissionIcon permission
            = Elem t [("className", PString "h-4 w-4")] []
            /\ (t = Eye \/ t = Send \/ t = Shield).
Proof.
  unfold getPermissionIcon.
  repeat match goal with
         | |- context [String.eqb ?a ?b] => destruct (String.eqb a b)
         end; eexists; split; eauto.
Qed.

Lemma find_all_walletRow (p : DAppConnectionProps) (i : nat) (w : Wallet) :
  find_all is_wallet_row (walletRow p i w) = [walletRow p i w].
Proof. unfold walletRow. destruct (isSelected p w); reflexivity. Qed.

Lemma find_all_control_walletRow (p : DAppConnectionProps) (i : nat)
    (w : Wallet) (t : Tag) :
  t = Button \/ t = Alert ->
  find_all (is_tag t) (walletRow p i w) = [].
Proof.
  intros [-> | ->]; unfold walletRow; destruct (isSelected p w); reflexivity.
Qed.

(** A permission row consists of [div]s, a [span], one icon and a text,
    none of them clickable. *)
Lemma find_all_permissionRow (P : Element -> bool) (i : nat) (s : string) :
  (forall x, P (Text x) = false) ->
  (forall t a c,
      In t [Html "div"; Html "span"; Eye; Send; Shield] ->
      assoc "onClick" a = None -> P (Elem t a c) = false) ->
  find_all P (permissionRow i s) = [].
Proof.
  intros HT HE.
  destruct (getPermissionIcon_cases s) as (t & Hi & Ht).
  unfold permissionRow. rewrite Hi. simpl.
  rewrite HT, !HE; try reflexivity; simpl; try tauto.
  destruct Ht as [-> | [-> | ->]]; tauto.
Qed.

Lemma is_wallet_row_permissionRow (i : nat) (s : string) :
  find_all is_wallet_row (permissionRow i s) = [].
Proof.
  apply find_all_permissionRow; [reflexivity|].
  intros t a c _ Ha. unfold is_wallet_row, has_prop, prop. simpl.
  rewrite Ha. apply andb_false_r.
Qed.

Lemma is_control_permissionRow (t : Tag) (i : nat) (s : string) :
  t = Button \/ t = Alert ->
  find_all (is_tag t) (permissionRow i s) = [].
Proof.
  intros Ht. apply find_all_permissionRow; [reflexivity|].
  intros t' a c Hin _. unfold is_tag. apply bool_decide_eq_false. simpl.
  intros [= ->]. simpl in Hin.
  destruct Ht as [-> | ->]; intuition discriminate.
Qed.

Lemma texts_walletRow (p : DAppConnectionProps) (i : nat) (w : Wallet) :
  texts (walletRow p i w) = ["Account "; truncateAddress (address w)].
Proof. unfold walletRow. destruct (isSelected p w); reflexivity. Qed.

Lemma texts_permissionRow (i : nat) (s : string) :
  texts (permissionRow i s) = [getPermissionDescription s].
Proof.
  destruct (getPermissionIcon_cases s) as (t & Hi & _).
  unfold permissionRow. rewrite Hi. reflexivity.
Qed.

Lemma wallet_rows_DAppConnection (p : DAppConnectionProps) (st : State) :
  wallet_rows (DAppConnection p st) = imap (walletRow p) (wallets p).
Proof.
  unfold wallet_rows.
  render_cases p;
    rewrite (flat_map_imap_one _ _ _ _ (find_all_walletRow p));
    rewrite (flat_map_imap_nil _ _ _ is_wallet_row_permissionRow);
    now rewrite !app_nil_r.
Qed.

Lemma action_buttons_DAppConnection (p : DAppConnectionProps) (st : State) :
  action_buttons (DAppConnection p st) =
  [Elem Button
     [("variant", PString "outline");
      ("onClick", PHandler (handleReject p));
      ("disabled", PBool (isProcessing st));
      ("className", PString "flex-1")]
     [Text "Cancel"];
   Elem Button
     [("onClick", PHandler (handleApprove p));
      ("disabled",
       PBool (isProcessing st ||
              match selectedWallet p with
              | None => true
              | Some _ => false
              end));
      ("className", PString "flex-1")]
     [Text (if isProcessing st then "Connecting..." else "Connect")]].
Proof.
  unfold action_buttons.
  render_cases p;
    rewrite (flat_map_imap_nil _ (walletRow p))
      by (intros; apply find_all_control_walletRow; tauto);
    rewrite (flat_map_imap_nil _ permissionRow)
      by (intros; apply is_control_permissionRow; tauto);
    reflexivity.
Qed.

Lemma alert_DAppConnection (p : DAppConnectionProps) (st : State) :
  find_all (is_tag Alert) (DAppConnection p st) =
  [Elem Alert []
     [Elem Shield [("className", PString "h-4 w-4")] [];
      Elem AlertDescription [] [Text trustWarning]]].
Proof.
  render_cases p;
    rewrite (flat_map_imap_nil _ (walletRow p))
      by (intros; apply find_all_control_walletRow; tauto);
    rewrite (flat_map_imap_nil _ permissionRow)
      by (intros; apply is_control_permissionRow; tauto);
    reflexivity.
Qed.

Lemma texts_DAppConnection (p : DAppConnectionProps) (st : State) :
  exists header,
    texts (DAppConnection p st) =
    header ++
    ["Select Account"] ++
    flat_map (fun w => ["Account "; truncateAddress (address w)])
             (wallets p) ++
    ["This app will be able to:"] ++
    map getPermissionDescription (permissions (connectionRequest p)) ++
    [restrictionLine; trustWarning; "Cancel";
     if isProcessing st then "Connecting..." else "Connect"].
Proof.
  render_cases p;
    rewrite (flat_map_imap_map _ _ _ _ (texts_walletRow p));
    rewrite (flat_map_imap_map _ _ _ _ texts_permissionRow);
    rewrite flat_map_unit, ?app_nil_r, <- ?app_assoc; simpl;
    [> eexists [_; _; _; _] | eexists [_; _; _] | eexists [_; _; _] ];
    reflexivity.
Qed.

Lemma lookup_wallet_row (p : DAppConnectionProps) (st : State) (i : nat)
    (w : Wallet) :
  wallets p !! i = Some w ->
  wallet_rows (DAppConnection p st) !! i = Some (walletRow p i w).
Proof.
  intros H. rewrite wallet_rows_DAppConnection, list_lookup_imap, H.
  reflexivity.
Qed.

(* ===================================================================== *)
(** ** The approve and reject actions *)
(* ===================================================================== *)

Lemma run_handleApprove (p : DAppConnectionProps) (st : State) (w : Wallet) :
  selectedWallet p = Some w ->
  handleApprove p st =
  match onApprove p w with
  | Returns _ =>
      mkRun (Normal tt) {| isProcessing := true |}
        [ConsoleLog "DAppConnection: Approving connection for wallet:"
                    [address w];
         SetIsProcessing true;
         CallOnApprove w]
  | Throws error =>
      mkRun (Normal tt) {| isProcessing := false |}
        [ConsoleLog "DAppConnection: Approving connection for wallet:"
                    [address w];
         SetIsProcessing true;
         CallOnApprove w;
         ConsoleError "Connection approval error:" error;
         ToastCall connectionFailedToast;
         SetIsProcessing false]
  end.
Proof.
  intros Hsel. unfold handleApprove. rewrite Hsel.
  run_handler. destruct (onApprove p w); reflexivity.
Qed.

Lemma run_handleReject (p : DAppConnectionProps) (st : State) :
  handleReject p st =
  mkRun (match onReject p with
         | Returns _ => Normal tt
         | Throws error => Abrupt error
         end)
        {| isProcessing := true |}
        [ConsoleLog "DAppConnection: Rejecting connection" [];
         SetIsProcessing true;
         CallOnReject].
Proof.
  unfold handleReject. run_handler. destruct (onReject p); reflexivity.
Qed.

(** C1, as amended.  With a wallet selected, the approve action logs, sets
    the processing flag to true and then calls [onApprove] exactly once
    with the selected wallet.  If the call throws, the error is logged,
    exactly one "Connection Failed" notification is shown and the flag is
    reset to false.  If the call returns, whatever it returns (nothing, or
    a promise, be it pending, fulfilled or rejected), nothing is shown and
    the flag stays true.  The action itself never throws. *)
Theorem handleApprove_with_selection
    (p : DAppConnectionProps) (st : State) (w : Wallet) :
  selectedWallet p = Some w ->
  let r := handleApprove p st in
  completion r = Normal tt /\
  (exists rest,
      trace r =
      [ConsoleLog "DAppConnection: Approving connection for wallet:"
                  [address w];
       SetIsProcessing true;
       CallOnApprove w] ++ rest /\
      approve_calls rest = []) /\
  approve_calls (trace r) = [w] /\
  match onApprove p w with
  | Throws error =>
      toasts (trace r) = [connectionFailedToast] /\
      state_updates (trace r) = [true; false] /\
      isProcessing (final r) = false
  | Returns _ =>
      toasts (trace r) = [] /\
      state_updates (trace r) = [true] /\
      isProcessing (final r) = true
  end.
Proof.
  intros Hsel r. subst r. rewrite (run_handleApprove p st w Hsel).
  destruct (onApprove p w) as [v|error]; cbn;
    (split; [reflexivity|]);
    (split; [eexists; split; reflexivity|]);
    repeat split; reflexivity.
Qed.

Lemma handleApprove_with_selection_witness :
  let p := sampleProps (Some wallet0) (Throws "popup closed") in
  selectedWallet p = Some wallet0 /\
  toasts (trace (handleApprove p initialState)) = [connectionFailedToast] /\
  isProcessing (final (handleApprove p initialState)) = false.
Proof.
  split; [reflexivity|].
  pose proof (handleApprove_with_selection
                (sampleProps (Some wallet0) (Throws "popup closed"))
                initialState wallet0 eq_refl) as H.
  cbv zeta in H. destruct H as (_ & _ & _ & H). cbn in H. tauto.
Defined.

(** C1, as stated, fails: [onApprove] is called without [await], so when it
    returns a promise that is rejected, the [catch] block does not run; no
    notification is shown and the processing flag stays true. *)
Lemma handleApprove_rejected_promise_not_caught :
  let p := sampleProps (Some wallet0)
                       (Returns (PromiseOf (Rejected "user denied"))) in
  let r := handleApprove p initialState in
  selectedWallet p = Some wallet0 /\
  throws_or_rejects (onApprove p wallet0) = true /\
  toasts (trace r) = [] /\
  isProcessing (final r) = true /\
  ~ (length (toasts (trace r)) = 1%nat /\ isProcessing (final r) = false).
Proof.
  cbv zeta. repeat split; try reflexivity.
  intros [H _]. vm_compute in H. discriminate H.
Qed.

(** C2.  With no wallet selected, the approve action shows exactly one
    "No Wallet Selected" notification and does nothing else: [onApprove]
    is not called, the state setter is not called, and the component state
    is what it was. *)
Theorem handleApprove_without_selection
    (p : DAppConnectionProps) (st : State) :
  selectedWallet p = None ->
  handleApprove p st = mkRun (Normal tt) st [ToastCall noWalletToast] /\
  approve_calls (trace (handleApprove p st)) = [] /\
  toasts (trace (handleApprove p st)) = [noWalletToast] /\
  state_updates (trace (handleApprove p st)) = [] /\
  final (handleApprove p st) = st.
Proof.
  intros Hsel.
  assert (E : handleApprove p st
              = mkRun (Normal tt) st [ToastCall noWalletToast]).
  { unfold handleApprove. rewrite Hsel. reflexivity. }
  rewrite E. repeat split.
Qed.

Lemma handleApprove_without_selection_witness :
  let p := sampleProps None (Returns Undefined) in
  selectedWallet p = None /\
  handleApprove p initialState
  = mkRun (Normal tt) initialState [ToastCall noWalletToast].
Proof.
  split; [reflexivity|].
  apply (handleApprove_without_selection
           (sampleProps None (Returns Undefined)) initialState eq_refl).
Defined.

(** C3.  Whatever the selection and the state, the reject action logs, sets
    the processing flag to true and then calls [onReject] exactly once.
    There is no error handling: nothing is shown, the flag is not set
    again, and an exception of [onReject] leaves the handler as it is. *)
Theorem handleReject_unconditional (p : DAppConnectionProps) (st : State) :
  let r := handleReject p st in
  trace r = [ConsoleLog "DAppConnection: Rejecting connection" [];
             SetIsProcessing true;
             CallOnReject] /\
  reject_calls (trace r) = 1%nat /\
  state_updates (trace r) = [true] /\
  toasts (trace r) = [] /\
  isProcessing (final r) = true /\
  completion r = match onReject p with
                 | Returns _ => Normal tt
                 | Throws error => Abrupt error
                 end.
Proof.
  cbv zeta. rewrite run_handleReject. cbn. repeat split.
Qed.

(* ===================================================================== *)
(** ** The rendered dialog *)
(* ===================================================================== *)

(** C4.  Every render has exactly two action buttons, Cancel (bound to the
    reject action) and Connect (bound to the approve action).  Cancel is
    disabled exactly when the processing flag is true; Connect is disabled
    when the flag is true or no wallet is selected, that is, Connect is
    enabled if and only if a wallet is selected and the flag is false. *)
Theorem action_buttons_disabled (p : DAppConnectionProps) (st : State) :
  exists cancel connect,
    action_buttons (DAppConnection p st) = [cancel; connect] /\
    prop "onClick" cancel = Some (PHandler (handleReject p)) /\
    prop "onClick" connect = Some (PHandler (handleApprove p)) /\
    disabled cancel = isProcessing st /\
    disabled connect
    = (isProcessing st || negb (bool_decide (is_Some (selectedWallet p)))) /\
    (isProcessing st = true ->
     disabled cancel = true /\ disabled connect = true) /\
    (selectedWallet p = None -> disabled connect = true) /\
    (disabled connect = false <->
     is_Some (selectedWallet p) /\ isProcessing st = false).
Proof.
  rewrite action_buttons_DAppConnection.
  do 2 eexists. split; [reflexivity|].
  unfold disabled, prop. cbn.
  destruct (isProcessing st), (selectedWallet p) as [w|]; cbn;
    repeat split; try reflexivity; try discriminate; try tauto;
    try (intros [[w' Hw] _]; discriminate);
    try (intros [_ H]; discriminate); eauto.
Qed.

(** C5.  Icon and description are functions of the permission identifier
    alone: "view_address" and "view_balance" give the eye icon,
    "call_methods" the send icon, and each of the three its fixed
    sentence; any other identifier gives the shield icon and is its own
    description.  A permission row shows that icon and that description. *)
Theorem permission_icon_and_description :
  tag_of (getPermissionIcon "view_address") = Some Eye /\
  tag_of (getPermissionIcon "view_balance") = Some Eye /\
  tag_of (getPermissionIcon "call_methods") = Some Send /\
  getPermissionDescription "view_address"
  = "View the address of your permitted account" /\
  getPermissionDescription "view_balance"
  = "View the balance of your permitted account" /\
  getPermissionDescription "call_methods"
  = "Call methods on the smart contract on behalf of your permitted account" /\
  (forall s : string,
      s <> "view_address" -> s <> "view_balance" -> s <> "call_methods" ->
      tag_of (getPermissionIcon s) = Some Shield /\
      getPermissionDescription s = s) /\
  (forall (i : nat) (s : string),
      find_all (fun e => is_tag Eye e || is_tag Send e || is_tag Shield e)
               (permissionRow i s) = [getPermissionIcon s] /\
      texts (permissionRow i s) = [getPermissionDescription s]).
Proof.
  repeat (split; [reflexivity|]). split.
  - intros s H1 H2 H3.
    apply String.eqb_neq in H1, H2, H3.
    unfold getPermissionIcon, getPermissionDescription.
    rewrite H1, H2, H3. split; reflexivity.
  - intros i s. split; [|apply texts_permissionRow].
    destruct (getPermissionIcon_cases s) as (t & Hi & Ht).
    unfold permissionRow. rewrite Hi.
    destruct Ht as [-> | [-> | ->]]; reflexivity.
Qed.

Lemma permission_icon_and_description_witness :
  tag_of (getPermissionIcon "custom_scope") = Some Shield /\
  getPermissionDescription "custom_scope" = "custom_scope".
Proof.
  apply permission_icon_and_description; discriminate.
Defined.

(** C6.  The address shown in an account row is the first 8 characters of
    the wallet's address, then "...", then its last 6 characters; the
    sample address is shown as "0x123456...345678". *)
Theorem truncated_address_displayed
    (p : DAppConnectionProps) (st : State) (i : nat) (w : Wallet) :
  wallets p !! i = Some w ->
  (exists row,
      wallet_rows (DAppConnection p st) !! i = Some row /\
      texts row = ["Account "; truncateAddress (address w)]) /\
  truncateAddress (address w)
  = first_chars 8 (address w) +:+ "..." +:+ last_chars 6 (address w) /\
  truncateAddress "0x1234567890abcdef1234567890abcdef12345678"
  = "0x123456...345678".
Proof.
  intros Hw. split; [|split; [|reflexivity]].
  - exists (walletRow p i w). split.
    + now apply lookup_wallet_row.
    + apply texts_walletRow.
  - unfold truncateAddress.
    rewrite (slice_prefix 8), (slice_suffix 6) by lia. reflexivity.
Qed.

Lemma truncated_address_displayed_witness :
  let p := sampleProps None (Returns Undefined) in
  wallets p !! 0%nat = Some wallet0 /\
  exists row,
    wallet_rows (DAppConnection p initialState) !! 0%nat = Some row /\
    texts row = ["Account "; "0x123456...345678"].
Proof.
  split; [reflexivity|].
  apply (truncated_address_displayed
           (sampleProps None (Returns Undefined)) initialState 0 wallet0
           eq_refl).
Defined.

(** C7.  Whatever the connection request (its permission list may be
    empty), the render shows, right after the descriptions of the requested
    permissions, the line saying that the app cannot transfer tokens, and
    right below it the trust warning, which is the one alert banner of the
    dialog. *)
Theorem restriction_and_warning_always_rendered
    (p : DAppConnectionProps) (st : State) :
  (exists header,
      texts (DAppConnection p st) =
      header ++
      ["Select Account"] ++
      flat_map (fun w => ["Account "; truncateAddress (address w)])
               (wallets p) ++
      ["This app will be able to:"] ++
      map getPermissionDescription (permissions (connectionRequest p)) ++
      ["This does not allow the app to transfer tokens";
       "Only connect to websites you trust. This connection will allow the app to view your account information and request transactions.";
       "Cancel";
       if isProcessing st then "Connecting..." else "Connect"]) /\
  In "This does not allow the app to transfer tokens"
     (texts (DAppConnection p st)) /\
  find_all (is_tag Alert) (DAppConnection p st) =
  [Elem Alert []
     [Elem Shield [("className", PString "h-4 w-4")] [];
      Elem AlertDescription []
        [Text "Only connect to websites you trust. This connection will allow the app to view your account information and request transactions."]]].
Proof.
  destruct (texts_DAppConnection p st) as (header & E).
  split; [exists header; exact E|]. split; [|apply alert_DAppConnection].
  rewrite E. apply in_or_app; right. simpl; right.
  apply in_or_app; right. simpl; right. apply in_or_app; right.
  simpl; left; reflexivity.
Qed.

(** C8.  A click on the row of a wallet calls [onWalletSelect] exactly once,
    with that wallet, and does nothing else, whatever the current selection
    (the row may be the selected one) and whatever the local state. *)
Theorem wallet_row_click_selects
    (p : DAppConnectionProps) (st st' : State) (i : nat) (w : Wallet) :
  wallets p !! i = Some w ->
  length (wallet_rows (DAppConnection p st)) = length (wallets p) /\
  exists row,
    wallet_rows (DAppConnection p st) !! i = Some row /\
    trace (click row st') = [CallOnWalletSelect w] /\
    select_calls (trace (click row st')) = [w] /\
    final (click row st') = st'.
Proof.
  intros Hw. split.
  - rewrite wallet_rows_DAppConnection. apply length_imap.
  - exists (walletRow p i w). split; [now apply lookup_wallet_row|].
    unfold click, walletRow, disabled, prop. cbn. run_handler.
    destruct (onWalletSelect p w); repeat split.
Qed.

Lemma wallet_row_click_selects_witness :
  let p := sampleProps (Some wallet1) (Returns Undefined) in
  wallets p !! 1%nat = Some wallet1 /\
  selectedWallet p = Some wallet1 /\
  exists row,
    wallet_rows (DAppConnection p initialState) !! 1%nat = Some row /\
    trace (click row initialState) = [CallOnWalletSelect wallet1] /\
    select_calls (trace (click row initialState)) = [wallet1] /\
    final (click row initialState) = initialState.
Proof.
  split; [reflexivity|]. split; [reflexivity|].
  apply (wallet_row_click_selects
           (sampleProps (Some wallet1) (Returns Undefined))
           initialState initialState 1 wallet1 eq_refl).
Defined.

(** C9.  [truncateAddress] has no length guard: for every string it is
    [slice(0, 8)], then "...", then [slice(-6)], where [slice(0, 8)] is
    the first 8 characters and [slice(-6)] the last 6, each clipped to the
    string.  A character at a position that lies in both ranges is shown
    twice, and a non-empty address shorter than 14 characters has such a
    position.  The empty address is shown as "...". *)
Theorem truncateAddress_no_length_guard (a : string) :
  truncateAddress a
  = JS.slice a 0 (Some 8) +:+ "..." +:+ JS.slice a (-6) None /\
  JS.slice a 0 (Some 8) = first_chars 8 a /\
  JS.slice a (-6) None = last_chars 6 a /\
  String.length (truncateAddress a)
  = (Nat.min 8 (String.length a) + 3 + Nat.min 6 (String.length a))%nat /\
  (forall i : nat,
      (String.length a - 6 <= i)%nat -> (i < 8)%nat ->
      String.get i (JS.slice a 0 (Some 8)) = String.get i a /\
      String.get (i - (String.length a - 6)) (JS.slice a (-6) None)
      = String.get i a) /\
  ((0 < String.length a < 14)%nat ->
   exists (i : nat) (c : ascii),
     String.get i a = Some c /\
     String.get i (JS.slice a 0 (Some 8)) = Some c /\
     String.get (i - (String.length a - 6)) (JS.slice a (-6) None) = Some c) /\
  truncateAddress "" = "...".
Proof.
  assert (Hp : JS.slice a 0 (Some 8) = first_chars 8 a)
    by apply (slice_prefix 8).
  assert (Hs : JS.slice a (-6) None = last_chars 6 a)
    by (apply (slice_suffix 6); lia).
  assert (Hboth : forall i : nat,
             (String.length a - 6 <= i)%nat -> (i < 8)%nat ->
             String.get i (JS.slice a 0 (Some 8)) = String.get i a /\
             String.get (i - (String.length a - 6)) (JS.slice a (-6) None)
             = String.get i a).
  { intros i Hlo Hhi. rewrite Hp, Hs. split.
    - now apply get_first_chars.
    - unfold last_chars. rewrite get_skip_chars. f_equal. lia. }
  repeat split; try assumption; try reflexivity.
  - unfold truncateAddress. rewrite Hp, Hs, !length_append.
    rewrite length_first_chars, length_last_chars. simpl. lia.
  - now apply Hboth.
  - now apply Hboth.
  - intros [Hpos Hlt].
    set (i := (Nat.min 7 (String.length a - 1))%nat).
    assert (Hi : (i < String.length a)%nat) by lia.
    destruct (String.get i a) as [c|] eqn:E.
    + exists i, c. destruct (Hboth i) as [H1 H2]; [lia | lia |].
      rewrite H1, H2, E. repeat split.
    + exfalso. revert E. clear -Hi. generalize i Hi. clear i Hi.
      induction a as [|c a IH]; intros i Hi; simpl in *; [lia|].
      destruct i as [|i]; [discriminate|]. apply IH. lia.
Qed.

Lemma truncateAddress_no_length_guard_witness :
  (0 < String.length "0xabcdef12" < 14)%nat /\
  truncateAddress "0xabcdef12" = "0xabcdef...cdef12" /\
  exists (i : nat) (c : ascii),
    String.get i "0xabcdef12" = Some c /\
    String.get i (JS.slice "0xabcdef12" 0 (Some 8)) = Some c /\
    String.get (i - (String.length "0xabcdef12" - 6))
               (JS.slice "0xabcdef12" (-6) None) = Some c.
Proof.
  split; [simpl; lia|]. split; [reflexivity|].
  apply (truncateAddress_no_length_guard "0xabcdef12"). simpl; lia.
Defined.

(** C10.  The row of a wallet has the selected style (highlighted border
    and check mark) if and only if a wallet is selected and its address is
    the address of the row's wallet.  Only the address counts: every other
    entry of the list with the same address has the same style, so two
    distinct entries sharing the selected address are both shown as
    selected. *)
Theorem row_selected_iff_same_address
    (p : DAppConnectionProps) (st : State) (i : nat) (w : Wallet) :
  wallets p !! i = Some w ->
  exists row,
    wallet_rows (DAppConnection p st) !! i = Some row /\
    (has_selected_style row = true <-> selectedAddress p = Some (address w)) /\
    (has_check_mark row = true <-> selectedAddress p = Some (address w)) /\
    (forall (j : nat) (w' : Wallet),
        wallets p !! j = Some w' -> address w' = address w ->
        exists row',
          wallet_rows (DAppConnection p st) !! j = Some row' /\
          has_selected_style row' = has_selected_style row /\
          has_check_mark row' = has_check_mark row).
Proof.
  intros Hw.
  assert (Hstyle : forall k v,
             has_selected_style (walletRow p k v) = isSelected p v).
  { intros k v. unfold has_selected_style, walletRow, prop.
    destruct (isSelected p v); reflexivity. }
  assert (Hcheck : forall k v,
             has_check_mark (walletRow p k v) = isSelected p v).
  { intros k v. unfold has_check_mark, walletRow.
    destruct (isSelected p v); reflexivity. }
  assert (Hsel : forall v,
             isSelected p v = true <-> selectedAddress p = Some (address v)).
  { intros v. unfold isSelected, selectedAddress.
    destruct (selectedWallet p) as [s|]; simpl.
    - rewrite String.eqb_eq. split; [intros ->; reflexivity | congruence].
    - split; discriminate. }
  exists (walletRow p i w). split; [now apply lookup_wallet_row|].
  rewrite Hstyle, Hcheck. split; [apply Hsel|]. split; [apply Hsel|].
  intros j w' Hw' Ha. exists (walletRow p j w').
  split; [now apply lookup_wallet_row|].
  rewrite !Hstyle, !Hcheck. unfold isSelected. rewrite Ha. split; reflexivity.
Qed.

Lemma row_selected_iff_same_address_witness :
  let p := sampleProps (Some wallet0) (Returns Undefined) in
  wallets p !! 0%nat = Some wallet0 /\
  wallets p !! 2%nat = Some wallet2 /\
  wallet0 <> wallet2 /\
  address wallet2 = address wallet0 /\
  exists row,
    wallet_rows (DAppConnection p initialState) !! 0%nat = Some row /\
    (has_selected_style row = true <->
     selectedAddress p = Some (address wallet0)) /\
    (has_check_mark row = true <->
     selectedAddress p = Some (address wallet0)) /\
    (forall (j : nat) (w' : Wallet),
        wallets p !! j = Some w' -> address w' = address wallet0 ->
        exists row',
          wallet_rows (DAppConnection p initialState) !! j = Some row' /\
          has_selected_style row' = has_selected_style row /\
          has_check_mark row' = has_check_mark row).
Proof.
  repeat (split; [first [reflexivity | discriminate]|]).
  apply (row_selected_iff_same_address
           (sampleProps (Some wallet0) (Returns Undefined))
           initialState 0 wallet0 eq_refl).
Defined.

(* ===================================================================== *)
(** ** Sample evaluations *)
(* ===================================================================== *)

Example truncate_short_address : truncateAddress "abc" = "abc...abc".
Proof. reflexivity. Qed.

Example truncate_ten_characters :
  truncateAddress "0123456789" = "01234567...456789".
Proof. reflexivity. Qed.

Example truncate_fourteen_characters :
  truncateAddress "0123456789abcd" = "01234567...89abcd".
Proof. reflexivity. Qed.

Example sample_render_texts :
  texts (DAppConnection (sampleProps (Some wallet0) (Returns Undefined))
                        initialState)
  = ["Octra Swap"; " wants to connect"; "https://swap.example";
     "Select Account";
     "Account "; "0x123456...345678";
     "Account "; "oct8UYok...vvvvvv";
     "Account "; "0x123456...345678";
     "This app will be able to:";
     "View the address of your permitted account";
     "Call methods on the smart contract on behalf of your permitted account";
     "custom_scope";
     "This does not allow the app to transfer tokens";
     "Only connect to websites you trust. This connection will allow the app to view your account information and request transactions.";
     "Cancel"; "Connect"].
Proof. reflexivity. Qed.

Example sample_render_empty_permissions :
  let p := {| connectionRequest :=
                {| appName := None; appIcon := Some "icon.png";
                   origin := "https://dapp.example"; permissions := [] |};
              wallets := [];
              selectedWallet := None;
              onWalletSelect := fun _ => Returns Undefined;
              onApprove := fun _ => Returns Undefined;
              onReject := Returns Undefined |} in
  texts (DAppConnection p {| isProcessing := true |})
  = ["A"; "Unknown App"; " wants to connect"; "https://dapp.example";
     "Select Account";
     "This app will be able to:";
     "This does not allow the app to transfer tokens";
     "Only connect to websites you trust. This connection will allow the app to view your account information and request transactions.";
     "Cancel"; "Connecting..."].
Proof. reflexivity. Qed.

Example approve_then_throw :
  handleApprove (sampleProps (Some wallet1) (Throws "popup closed"))
                initialState
  = mkRun (Normal tt) {| isProcessing := false |}
      [ConsoleLog "DAppConnection: Approving connection for wallet:"
                  [address wallet1];
       SetIsProcessing true;
       CallOnApprove wallet1;
       ConsoleError "Connection approval error:" "popup closed";
       ToastCall connectionFailedToast;
       SetIsProcessing false].
Proof. reflexivity. Qed.

(* ===================================================================== *)
(** ** Clicks through the rendered tree *)
(* ===================================================================== *)

Lemma state_eta (st : State) : {| isProcessing := isProcessing st |} = st.
Proof. now destruct st. Qed.

Lemma handleApprove_none (p : DAppConnectionProps) (st : State) :
  selectedWallet p = None ->
  handleApprove p st = mkRun (Normal tt) st [ToastCall noWalletToast] /\
  final (handleApprove p st) = st.
Proof.
  intros Hsel. unfold handleApprove. rewrite Hsel. split; reflexivity.
Qed.

Lemma dispatch_account (p : DAppConnectionProps) (i : nat) (st : State) :
  dispatch p (ClickAccount i) st =
  match wallets p !! i with
  | Some w =>
      mkRun (match onWalletSelect p w with
             | Returns _ => Normal tt
             | Throws error => Abrupt error
             end) st [CallOnWalletSelect w]
  | None => mkRun (Normal tt) st []
  end.
Proof.
  unfold dispatch, target.
  rewrite wallet_rows_DAppConnection, list_lookup_imap.
  destruct (wallets p !! i) as [w|]; [|reflexivity].
  unfold click, walletRow, disabled, prop. cbn. run_handler.
  destruct (onWalletSelect p w); reflexivity.
Qed.

Lemma dispatch_cancel (p : DAppConnectionProps) (st : State) :
  dispatch p ClickCancel st =
  if isProcessing st then mkRun (Normal tt) st [] else handleReject p st.
Proof.
  unfold dispatch, target. rewrite action_buttons_DAppConnection.
  unfold click, disabled, prop. cbn.
  destruct (isProcessing st); reflexivity.
Qed.

Lemma dispatch_connect (p : DAppConnectionProps) (st : State) :
  dispatch p ClickConnect st =
  if isProcessing st then mkRun (Normal tt) st []
  else match selectedWallet p with
       | None => mkRun (Normal tt) st []
       | Some _ => handleApprove p st
       end.
Proof.
  unfold dispatch, target. rewrite action_buttons_DAppConnection.
  unfold click, disabled, prop. cbn.
  destruct (isProcessing st), (selectedWallet p); reflexivity.
Qed.

(** What one event can do: nothing, one call of [onWalletSelect], the
    reject action or the approve action with a selected wallet; the last
    two only from a state that is not processing. *)
Lemma dispatch_cases (p : DAppConnectionProps) (ev : UserEvent) (st : State) :
  dispatch p ev st = mkRun (Normal tt) st [] \/
  (exists w c, dispatch p ev st = mkRun c st [CallOnWalletSelect w]) \/
  (isProcessing st = false /\ dispatch p ev st = handleReject p st) \/
  (isProcessing st = false /\
   exists w, selectedWallet p = Some w /\
             dispatch p ev st = handleApprove p st).
Proof.
  destruct ev as [i| |].
  - rewrite dispatch_account. destruct (wallets p !! i) as [w|]; eauto.
  - rewrite dispatch_cancel. destruct (isProcessing st); eauto.
  - rewrite dispatch_connect.
    destruct (isProcessing st); [eauto|].
    destruct (selectedWallet p) as [w|]; eauto 8.
Qed.

Lemma approve_calls_app (a b : list Effect) :
  approve_calls (a ++ b) = approve_calls a ++ approve_calls b.
Proof. apply omap_app. Qed.

Lemma toasts_app (a b : list Effect) : toasts (a ++ b) = toasts a ++ toasts b.
Proof. apply omap_app. Qed.

Lemma state_updates_app (a b : list Effect) :
  state_updates (a ++ b) = state_updates a ++ state_updates b.
Proof. apply omap_app. Qed.

Lemma reject_calls_app (a b : list Effect) :
  reject_calls (a ++ b) = (reject_calls a + reject_calls b)%nat.
Proof. unfold reject_calls. now rewrite omap_app, length_app. Qed.

Lemma session_cons (p : DAppConnectionProps) (ev : UserEvent)
    (evs : list (DAppConnectionProps * UserEvent)) (st : State) :
  session ((p, ev) :: evs) st =
  (fst (session evs (final (dispatch p ev st))),
   trace (dispatch p ev st) ++ snd (session evs (final (dispatch p ev st)))).
Proof. reflexivity. Qed.

Lemma session_while_processing
    (evs : list (DAppConnectionProps * UserEvent)) (st : State) :
  isProcessing st = true ->
  fst (session evs st) = st /\
  approve_calls (snd (session evs st)) = [] /\
  reject_calls (snd (session evs st)) = 0%nat /\
  toasts (snd (session evs st)) = [] /\
  state_updates (snd (session evs st)) = [].
Proof.
  intros Hst. induction evs as [|[p ev] evs IH]; [repeat split|].
  rewrite session_cons.
  destruct (dispatch_cases p ev st)
    as [E | [(w & c & E) | [[Hf _] | [Hf _]]]]; try congruence;
    rewrite E; cbn [final trace fst snd];
    rewrite approve_calls_app, reject_calls_app, toasts_app,
      state_updates_app;
    destruct IH as (IH1 & -> & -> & -> & ->); repeat split; exact IH1.
Qed.

(** Rewriting the trace counters of a session that starts with one event. *)
Ltac session_step :=
  rewrite session_cons;
  cbn [final trace fst snd];
  rewrite ?approve_calls_app, ?reject_calls_app, ?toasts_app,
    ?state_updates_app.

Lemma session_summary (evs : list (DAppConnectionProps * UserEvent)) :
  forall st : State,
    (reject_calls (snd (session evs st)) <= 1)%nat /\
    Forall (eq connectionFailedToast) (toasts (snd (session evs st))) /\
    (length (toasts (snd (session evs st)))
     <= length (approve_calls (snd (session evs st))))%nat /\
    (reject_calls (snd (session evs st)) = 1%nat ->
     isProcessing (fst (session evs st)) = true).
Proof.
  induction evs as [|[p ev] evs IH]; intros st.
  { cbn. repeat split; auto; discriminate. }
  destruct (dispatch_cases p ev st)
    as [E | [(w & c & E) | [[Hf E] | (Hf & w & Hsel & E)]]].
  - session_step. rewrite E. cbn. apply IH.
  - session_step. rewrite E. cbn. apply IH.
  - session_step. rewrite E, run_handleReject. cbn [final trace].
    destruct (session_while_processing evs {| isProcessing := true |} eq_refl)
      as (-> & -> & -> & -> & _).
    cbn. repeat split; auto.
  - session_step. rewrite E, (run_handleApprove p st w Hsel).
    destruct (onApprove p w) as [v|error]; cbn [final trace].
    + destruct (session_while_processing evs {| isProcessing := true |}
                  eq_refl) as (-> & -> & -> & -> & _).
      cbn. repeat split; auto; discriminate.
    + destruct (IH {| isProcessing := false |}) as (H1 & H2 & H3 & H4).
      cbn. repeat split; auto. lia.
Qed.


Lemma session_retry (p : DAppConnectionProps) (w : Wallet) (error : string)
    (n : nat) :
  selectedWallet p = Some w -> onApprove p w = Throws error ->
  session (repeat (p, ClickConnect) n) {| isProcessing := false |}
  = ({| isProcessing := false |},
     concat (repeat
       [ConsoleLog "DAppConnection: Approving connection for wallet:"
                   [address w];
        SetIsProcessing true;
        CallOnApprove w;
        ConsoleError "Connection approval error:" error;
        ToastCall connectionFailedToast;
        SetIsProcessing false] n)).
Proof.
  intros Hsel Hthrow. induction n as [|n IH]; [reflexivity|].
  cbn [repeat]. rewrite session_cons, dispatch_connect. cbn [isProcessing].
  rewrite Hsel, (run_handleApprove p _ w Hsel), Hthrow. cbn [final trace].
  rewrite IH. reflexivity.
Qed.

(** X1.  Once the processing flag is true, no sequence of clicks changes
    the state, calls [onApprove] or [onReject], or shows a notification;
    whatever the props of the renders, the only thing the dialog still
    does is report clicks on account rows. *)
Theorem processing_is_absorbing
    (evs : list (DAppConnectionProps * UserEvent)) (st : State) :
  isProcessing st = true ->
  fst (session evs st) = st /\
  approve_calls (snd (session evs st)) = [] /\
  reject_calls (snd (session evs st)) = 0%nat /\
  toasts (snd (session evs st)) = [] /\
  state_updates (snd (session evs st)) = [].
Proof. apply session_while_processing. Qed.

Lemma processing_is_absorbing_witness :
  let evs := [(sampleProps (Some wallet0) (Returns Undefined), ClickConnect);
              (sampleProps (Some wallet1) (Throws "late"), ClickCancel);
              (sampleProps None (Returns Undefined), ClickAccount 1)] in
  isProcessing {| isProcessing := true |} = true /\
  session evs {| isProcessing := true |}
  = ({| isProcessing := true |}, [CallOnWalletSelect wallet1]) /\
  approve_calls (snd (session evs {| isProcessing := true |})) = [].
Proof.
  cbv zeta. split; [reflexivity|]. split; [reflexivity|].
  apply processing_is_absorbing. reflexivity.
Defined.

(** X2.  In any sequence of clicks, from any state and whatever the props
    of the renders, [onReject] is called at most once; and if it was
    called, the dialog ends with the processing flag set. *)
Theorem reject_at_most_once
    (evs : list (DAppConnectionProps * UserEvent)) (st : State) :
  (reject_calls (snd (session evs st)) <= 1)%nat /\
  (reject_calls (snd (session evs st)) = 1%nat ->
   isProcessing (fst (session evs st)) = true).
Proof.
  destruct (session_summary evs st) as (H1 & _ & _ & H4). now split.
Qed.

(** X3.  The "No Wallet Selected" notification cannot be reached through
    the rendered buttons, because Connect is disabled when no wallet is
    selected: every notification of a sequence of clicks is "Connection
    Failed", and there are at most as many of them as calls of
    [onApprove]. *)
Theorem only_failure_toasts_from_clicks
    (evs : list (DAppConnectionProps * UserEvent)) (st : State) :
  Forall (eq connectionFailedToast) (toasts (snd (session evs st))) /\
  ~ In noWalletToast (toasts (snd (session evs st))) /\
  (length (toasts (snd (session evs st)))
   <= length (approve_calls (snd (session evs st))))%nat.
Proof.
  destruct (session_summary evs st) as (_ & H2 & H3 & _).
  split; [exact H2|]. split; [|exact H3].
  intros Hin. rewrite Forall_forall in H2.
  rewrite <- list_elem_of_In in Hin.
  specialize (H2 _ Hin). discriminate H2.
Qed.



(** X5.  A failed approval can be retried without limit: when [onApprove]
    throws for the selected wallet, [n] clicks on Connect from the idle
    state run the approve action [n] times (one call of [onApprove] and one
    "Connection Failed" notification each) and leave the dialog idle. *)
Theorem retry_after_failure
    (p : DAppConnectionProps) (w : Wallet) (error : string) (n : nat) :
  selectedWallet p = Some w -> onApprove p w = Throws error ->
  let r := session (repeat (p, ClickConnect) n) {| isProcessing := false |} in
  fst r = {| isProcessing := false |} /\
  approve_calls (snd r) = repeat w n /\
  toasts (snd r) = repeat connectionFailedToast n /\
  reject_calls (snd r) = 0%nat.
Proof.
  intros Hsel Hthrow r. subst r.
  rewrite (session_retry p w error n Hsel Hthrow). cbn [fst snd].
  split; [reflexivity|].
  induction n as [|n (IH1 & IH2 & IH3)]; [repeat split|].
  cbn [repeat concat].
  rewrite approve_calls_app, toasts_app, reject_calls_app, IH1, IH2, IH3.
  repeat split.
Qed.

Lemma retry_after_failure_witness :
  selectedWallet failingProps = Some wallet1 /\
  onApprove failingProps wallet1 = Throws "popup closed" /\
  approve_calls
    (snd (session (repeat (failingProps, ClickConnect) 3) initialState))
  = [wallet1; wallet1; wallet1] /\
  fst (session (repeat (failingProps, ClickConnect) 3) initialState)
  = initialState.
Proof.
  split; [reflexivity|]. split; [reflexivity|].
  pose proof (retry_after_failure failingProps wallet1 "popup closed" 3
                eq_refl eq_refl) as H.
  cbv zeta in H. destruct H as (H1 & H2 & _). split; [exact H2 | exact H1].
Defined.

(* ===================================================================== *)
(** ** The render that follows an action *)
(* ===================================================================== *)

(** X6.  After the reject action, whatever [onReject] did, the next render
    has both buttons disabled, and the Connect button reads
    "Connecting...". *)
Theorem render_after_reject (p : DAppConnectionProps) (st : State) :
  let tree := DAppConnection p (final (handleReject p st)) in
  map disabled (action_buttons tree) = [true; true] /\
  map texts (action_buttons tree) = [["Cancel"]; ["Connecting..."]].
Proof.
  cbv zeta. rewrite run_handleReject. cbn [final].
  rewrite action_buttons_DAppConnection. split; reflexivity.
Qed.

(** X7.  After the approve action with a wallet selected: if [onApprove]
    returned, the next render has both buttons disabled and Connect reads
    "Connecting..."; if it threw, the next render is the render of the
    idle state, with both buttons enabled. *)
Theorem render_after_approve
    (p : DAppConnectionProps) (st : State) (w : Wallet) :
  selectedWallet p = Some w ->
  let tree := DAppConnection p (final (handleApprove p st)) in
  match onApprove p w with
  | Returns _ =>
      map disabled (action_buttons tree) = [true; true] /\
      map texts (action_buttons tree) = [["Cancel"]; ["Connecting..."]]
  | Throws _ =>
      tree = DAppConnection p initialState /\
      map disabled (action_buttons tree) = [false; false] /\
      map texts (action_buttons tree) = [["Cancel"]; ["Connect"]]
  end.
Proof.
  intros Hsel tree. subst tree. rewrite (run_handleApprove p st w Hsel).
  destruct (onApprove p w) as [v|error]; cbn [final];
    rewrite ?action_buttons_DAppConnection.
  - split; reflexivity.
  - split; [reflexivity|]. unfold disabled, prop. cbn. rewrite Hsel.
    split; reflexivity.
Qed.

Lemma render_after_approve_witness :
  selectedWallet failingProps = Some wallet1 /\
  DAppConnection failingProps
    (final (handleApprove failingProps {| isProcessing := true |}))
  = DAppConnection failingProps initialState.
Proof.
  split; [reflexivity|].
  apply (render_after_approve failingProps {| isProcessing := true |}
           wallet1 eq_refl).
Defined.

(** X8.  Neither handler looks at the processing flag: called in any two
    states, the approve action and the reject action have the same effects
    and the same completion.  Double submission is prevented by the
    disabled buttons alone. *)
Theorem handlers_ignore_processing_flag
    (p : DAppConnectionProps) (st st' : State) :
  trace (handleApprove p st) = trace (handleApprove p st') /\
  completion (handleApprove p st) = completion (handleApprove p st') /\
  trace (handleReject p st) = trace (handleReject p st') /\
  completion (handleReject p st) = completion (handleReject p st') /\
  final (handleReject p st) = final (handleReject p st').
Proof.
  rewrite !run_handleReject. cbn [trace completion final].
  destruct (selectedWallet p) as [w|] eqn:Hsel.
  - rewrite !(run_handleApprove p _ w Hsel). repeat split.
  - destruct (handleApprove_none p st Hsel) as [-> _].
    destruct (handleApprove_none p st' Hsel) as [-> _]. repeat split.
Qed.

(* ===================================================================== *)
(** ** The header and the two lists *)
(* ===================================================================== *)

(** The rows of both lists hold none of the elements searched for by [P],
    when [P] holds of no text, number, [div], [span], check mark or
    permission icon. *)
Lemma flat_map_rows_nil (P : Element -> bool) (p : DAppConnectionProps)
    (ws : list Wallet) (perms : list string) :
  (forall x, P (Text x) = false) ->
  (forall n, P (Number n) = false) ->
  P Nothing = false ->
  (forall t a c,
      In t [Html "div"; Html "span"; Eye; Send; Shield; Check] ->
      P (Elem t a c) = false) ->
  flat_map (find_all P) (imap (walletRow p) ws) = [] /\
  flat_map (find_all P) (imap permissionRow perms) = [].
Proof.
  intros HT HN H0 HE. split.
  - apply flat_map_imap_nil. intros i w. unfold walletRow.
    destruct (isSelected p w); cbn [find_all flat_map app];
      rewrite ?HT, ?HN, ?H0, !HE; simpl; tauto.
  - apply flat_map_imap_nil. intros i s. apply find_all_permissionRow.
    + exact HT.
    + intros t a c Hin _. apply HE. simpl in *. tauto.
Qed.

(** Search for a tag that occurs in no row; [tac] settles the header's
    case distinction before the tree is evaluated. *)
Ltac search_outside_rows p tac :=
  match goal with
  | |- context [find_all ?P (DAppConnection p ?st)] =>
      let H := fresh in
      assert (H : forall ws perms,
                 flat_map (find_all P) (imap (walletRow p) ws) = [] /\
                 flat_map (find_all P) (imap permissionRow perms) = [])
        by (intros; apply flat_map_rows_nil; try reflexivity;
            intros ? ? ? Hin; simpl in Hin;
            repeat (destruct Hin as [<- | Hin]; [reflexivity|]);
            destruct Hin);
      unfold DAppConnection; tac; simpl;
      rewrite ?flat_map_app;
      rewrite ?(proj1 (H _ [])), ?(proj2 (H [] _)); simpl
  end.

(** X9.  The header shows the application's icon as an avatar image when
    [appIcon] is a non-empty string, with that string as [src]; when
    [appIcon] is missing or is the empty string it shows the generic
    external-link glyph instead.  It never shows both. *)
Theorem header_icon_or_placeholder (p : DAppConnectionProps) (st : State) :
  let tree := DAppConnection p st in
  let placeholder :=
    find_all (is_tag AvatarImage) tree = [] /\
    find_all (is_tag ExternalLink) tree =
    [Elem ExternalLink
       [("className", PString "h-8 w-8 text-primary-foreground")] []] in
  match appIcon (connectionRequest p) with
  | Some icon =>
      if String.eqb icon "" then placeholder
      else
        find_all (is_tag AvatarImage) tree =
        [Elem AvatarImage [("src", PString icon)] []] /\
        find_all (is_tag ExternalLink) tree = []
  | None => placeholder
  end.
Proof.
  cbv zeta.
  destruct (appIcon (connectionRequest p)) as [icon|] eqn:Hicon;
    [destruct (String.eqb icon "") eqn:Hempty|];
    (split;
     search_outside_rows p
       ltac:(rewrite Hicon; unfold JS.truthy; rewrite ?Hempty);
     reflexivity).
Qed.

(** The header's case distinction on [appIcon], then a search outside the
    rows. *)
Ltac search_header p :=
  let icon := fresh "icon" in
  let Hicon := fresh "Hicon" in
  let Hempty := fresh "Hempty" in
  destruct (appIcon (connectionRequest p)) as [icon|] eqn:Hicon;
  [destruct (String.eqb icon "") eqn:Hempty|];
  search_outside_rows p
    ltac:(rewrite Hicon; unfold JS.truthy; rewrite ?Hempty).

Lemma fallback_letter (name : option string) :
  let c := JS.or_else (option_map (fun s => JS.charAt s 0) name) "A" in
  String.length c = 1%nat /\
  match name with
  | Some s => if String.eqb s "" then c = "A" else c = first_chars 1 s
  | None => c = "A"
  end.
Proof.
  destruct name as [[|ch s]|]; cbn; auto.
  destruct s; auto.
Qed.

(** X10.  The title names the application by [appName], or by "Unknown
    App" when [appName] is missing or empty, so the name shown is never
    empty.  When an avatar is shown, its fallback is exactly one character:
    the first character of [appName], or "A" when [appName] is missing or
    empty. *)
Theorem header_app_name (p : DAppConnectionProps) (st : State) :
  let tree := DAppConnection p st in
  let name := JS.or_else (appName (connectionRequest p)) "Unknown App" in
  find_all (is_tag CardTitle) tree =
  [Elem CardTitle [("className", PString "text-xl")]
     [Text name; Text " wants to connect"]] /\
  name <> "" /\
  match appName (connectionRequest p) with
  | Some s => if String.eqb s "" then name = "Unknown App" else name = s
  | None => name = "Unknown App"
  end /\
  (forall c,
      In c (flat_map texts (find_all (is_tag AvatarFallback) tree)) ->
      String.length c = 1%nat /\
      match appName (connectionRequest p) with
      | Some s => if String.eqb s "" then c = "A" else c = first_chars 1 s
      | None => c = "A"
      end).
Proof.
  cbv zeta. split; [search_header p; reflexivity|]. split; [|split].
  - destruct (appName (connectionRequest p)) as [s|]; simpl;
      [destruct (String.eqb s "") eqn:E|]; try discriminate.
    intros ->. discriminate E.
  - destruct (appName (connectionRequest p)) as [s|]; simpl;
      [destruct (String.eqb s "")|]; reflexivity.
  - intros c. search_header p; intros Hin; try (destruct Hin; fail).
    destruct Hin as [<- | []]. apply fallback_letter.
Qed.

Lemma numbers_walletRow (p : DAppConnectionProps) (i : nat) (w : Wallet) :
  numbers (walletRow p i w) = [(i + 1)%nat].
Proof. unfold walletRow. destruct (isSelected p w); reflexivity. Qed.

Lemma numbers_permissionRow (i : nat) (s : string) :
  numbers (permissionRow i s) = [].
Proof.
  destruct (getPermissionIcon_cases s) as (t & Hi & _).
  unfold permissionRow. rewrite Hi. reflexivity.
Qed.

Lemma map_succ_seq (k n : nat) :
  map (fun i => (i + 1)%nat) (seq k n) = seq (k + 1) n.
Proof.
  revert k; induction n as [|n IH]; intros k; simpl; [reflexivity|].
  f_equal. apply (IH (S k)).
Qed.

(** X11.  The account rows are numbered 1, 2, ..., n in list order, where
    n is the number of wallets; no other number is shown.  With an empty
    wallet list nothing is numbered (and there is no row). *)
Theorem account_numbers (p : DAppConnectionProps) (st : State) :
  numbers (DAppConnection p st) = seq 1 (length (wallets p)) /\
  length (wallet_rows (DAppConnection p st)) = length (wallets p) /\
  (wallets p = [] ->
   wallet_rows (DAppConnection p st) = [] /\
   numbers (DAppConnection p st) = []).
Proof.
  assert (Hn : numbers (DAppConnection p st) = seq 1 (length (wallets p))).
  { render_cases p;
      rewrite (flat_map_imap_one _ _ (fun i _ => (i + 1)%nat))
        by apply numbers_walletRow;
      rewrite (flat_map_imap_nil _ _ _ numbers_permissionRow);
      rewrite (imap_seq_0 _ (fun i => (i + 1)%nat)), ?app_nil_r;
      apply (map_succ_seq 0). }
  assert (Hr : wallet_rows (DAppConnection p st)
               = imap (walletRow p) (wallets p))
    by apply wallet_rows_DAppConnection.
  split; [exact Hn|]. split; [rewrite Hr; apply length_imap|].
  intros Hw. rewrite Hn, Hr, Hw. split; reflexivity.
Qed.

Lemma account_numbers_witness :
  let p := {| connectionRequest := sampleRequest;
              wallets := [];
              selectedWallet := Some wallet0;
              onWalletSelect := fun _ => Returns Undefined;
              onApprove := fun _ => Returns Undefined;
              onReject := Returns Undefined |} in
  wallets p = [] /\
  wallet_rows (DAppConnection p initialState) = [] /\
  numbers (DAppConnection p initialState) = [].
Proof.
  cbv zeta. split; [reflexivity|].
  apply account_numbers. reflexivity.
Defined.

(** X12.  Each account row is keyed by the address of its wallet, so the
    keys of the rows are pairwise distinct if and only if the addresses of
    the wallets are. *)
Theorem account_row_keys (p : DAppConnectionProps) (st : State) :
  map (prop "key") (wallet_rows (DAppConnection p st))
  = map (fun w => Some (PString (address w))) (wallets p) /\
  (NoDup (map (prop "key") (wallet_rows (DAppConnection p st))) <->
   NoDup (map address (wallets p))).
Proof.
  assert (E : map (prop "key") (wallet_rows (DAppConnection p st))
              = map (fun w => Some (PString (address w))) (wallets p)).
  { rewrite wallet_rows_DAppConnection. apply list_eq. intros i.
    rewrite !list_lookup_fmap, list_lookup_imap.
    destruct (wallets p !! i); reflexivity. }
  split; [exact E|]. rewrite E.
  change (map (fun w => Some (PString (address w))) (wallets p))
    with ((fun w => Some (PString (address w))) <$> wallets p).
  rewrite (list_fmap_compose address (fun a => Some (PString a))).
  apply NoDup_fmap. intros a b [= ->]. reflexivity.
Qed.

Lemma find_all_index_key_walletRow (p : DAppConnectionProps) (i : nat)
    (w : Wallet) :
  find_all has_index_key (walletRow p i w) = [].
Proof. unfold walletRow. destruct (isSelected p w); reflexivity. Qed.

Lemma find_all_index_key_permissionRow (i : nat) (s : string) :
  find_all has_index_key (permissionRow i s) = [permissionRow i s].
Proof.
  destruct (getPermissionIcon_cases s) as (t & Hi & _).
  unfold permissionRow. rewrite Hi. reflexivity.
Qed.

Lemma permission_rows_DAppConnection (p : DAppConnectionProps) (st : State) :
  permission_rows (DAppConnection p st)
  = imap permissionRow (permissions (connectionRequest p)).
Proof.
  unfold permission_rows.
  render_cases p;
    rewrite (flat_map_imap_nil _ _ _ (find_all_index_key_walletRow p));
    rewrite (flat_map_imap_one _ _ _ _ find_all_index_key_permissionRow);
    now rewrite ?app_nil_r.
Qed.

Lemma icon_permissionRow (i : nat) (s : string) :
  find_all is_permission_icon (permissionRow i s) = [getPermissionIcon s].
Proof.
  destruct (getPermissionIcon_cases s) as (t & Hi & Ht).
  unfold permissionRow. rewrite Hi.
  destruct Ht as [-> | [-> | ->]]; reflexivity.
Qed.

(** X13.  The permission list has one row per requested permission, in the
    order of the request and with repetitions kept; row [i] shows the icon
    and the description of permission [i].  The rows are keyed by position,
    so their keys are always pairwise distinct. *)
Theorem permission_rows_in_order (p : DAppConnectionProps) (st : State) :
  let rows := permission_rows (DAppConnection p st) in
  let perms := permissions (connectionRequest p) in
  length rows = length perms /\
  (forall i s, perms !! i = Some s ->
     exists row,
       rows !! i = Some row /\
       prop "key" row = Some (PNumber i) /\
       find_all is_permission_icon row = [getPermissionIcon s] /\
       texts row = [getPermissionDescription s]) /\
  map (prop "key") rows
  = map (fun i => Some (PNumber i)) (seq 0 (length perms)) /\
  NoDup (map (prop "key") rows).
Proof.
  cbv zeta. rewrite permission_rows_DAppConnection.
  set (perms := permissions (connectionRequest p)).
  assert (Hk : map (prop "key") (imap permissionRow perms)
               = map (fun i => Some (PNumber i)) (seq 0 (length perms))).
  { change (map (prop "key") (imap permissionRow perms))
      with (prop "key" <$> imap permissionRow perms).
    rewrite fmap_imap.
    rewrite (imap_ext _ (fun i _ => Some (PNumber i)))
      by (intros; reflexivity).
    apply (imap_seq_0 perms (fun i => Some (PNumber i))). }
  split; [apply length_imap|]. split; [|split; [exact Hk|]].
  - intros i s Hs. exists (permissionRow i s). split.
    + rewrite list_lookup_imap, Hs. reflexivity.
    + split; [reflexivity|]. split;
        [apply icon_permissionRow | apply texts_permissionRow].
  - rewrite Hk.
    change (NoDup ((fun i => Some (PNumber i)) <$> seq 0 (length perms))).
    apply NoDup_fmap_2; [|apply NoDup_seq].
    intros a b [= ->]. reflexivity.
Qed.

Lemma permission_rows_in_order_witness :
  permissions (connectionRequest iconProps) !! 1%nat = Some "view_balance" /\
  exists row,
    permission_rows (DAppConnection iconProps initialState) !! 1%nat
    = Some row /\
    prop "key" row = Some (PNumber 1) /\
    find_all is_permission_icon row = [getPermissionIcon "view_balance"] /\
    texts row = [getPermissionDescription "view_balance"].
Proof.
  split; [reflexivity|].
  apply (permission_rows_in_order iconProps initialState). reflexivity.
Defined.

(* ===================================================================== *)
(** ** More on the helpers *)
(* ===================================================================== *)

Lemma append_inj_length (x1 x2 y1 y2 : string) :
  String.length x1 = String.length x2 ->
  x1 +:+ y1 = x2 +:+ y2 -> x1 = x2 /\ y1 = y2.
Proof.
  revert x2; induction x1 as [|c x1 IH]; intros [|d x2] Hl H;
    simpl in *; try discriminate; [now split|].
  injection H as -> H. injection Hl as Hl.
  destruct (IH x2 Hl H) as [-> ->]. now split.
Qed.

(** X14.  The displayed form never has more than 17 characters, and it
    identifies an address only by its first 8 and last 6 characters: two
    addresses are displayed alike if and only if they agree on both. *)
Theorem truncateAddress_collisions (a b : string) :
  (String.length (truncateAddress a) <= 17)%nat /\
  (truncateAddress a = truncateAddress b <->
   first_chars 8 a = first_chars 8 b /\ last_chars 6 a = last_chars 6 b).
Proof.
  assert (E : forall s, truncateAddress s
                        = first_chars 8 s +:+ "..." +:+ last_chars 6 s).
  { intros s. unfold truncateAddress.
    rewrite (slice_prefix 8), (slice_suffix 6) by lia. reflexivity. }
  split.
  - rewrite E, !length_append, length_first_chars, length_last_chars.
    change (String.length "...") with 3%nat. lia.
  - rewrite !E. split.
    + intros H.
      assert (Hlen : String.length (first_chars 8 a)
                     = String.length (first_chars 8 b)).
      { apply (f_equal String.length) in H.
        rewrite !length_append, !length_first_chars, !length_last_chars in H.
        rewrite !length_first_chars. lia. }
      destruct (append_inj_length _ _ _ _ Hlen H) as [H1 H2].
      split; [exact H1|]. now injection H2.
    + intros [-> ->]. reflexivity.
Qed.

Lemma truncateAddress_collisions_witness :
  "0x1234567890abcdef1234567890abcdef12345678"
  <> "0x123456ffffffffffffffffffffffffffff345678" /\
  truncateAddress "0x1234567890abcdef1234567890abcdef12345678"
  = truncateAddress "0x123456ffffffffffffffffffffffffffff345678".
Proof.
  split; [discriminate|].
  apply (truncateAddress_collisions
           "0x1234567890abcdef1234567890abcdef12345678"
           "0x123456ffffffffffffffffffffffffffff345678").
  split; reflexivity.
Defined.

(** X15.  The icon tells the category of a permission exactly: the eye
    icon is shown for "view_address" and "view_balance" and for nothing
    else, the send icon for "call_methods" only, the shield for every
    other identifier only; and a permission is described by its own
    identifier exactly when it is none of the three. *)
Theorem permission_icon_inverse (s : string) :
  let known :=
    s = "view_address" \/ s = "view_balance" \/ s = "call_methods" in
  (tag_of (getPermissionIcon s) = Some Eye <->
   s = "view_address" \/ s = "view_balance") /\
  (tag_of (getPermissionIcon s) = Some Send <-> s = "call_methods") /\
  (tag_of (getPermissionIcon s) = Some Shield <-> ~ known) /\
  (getPermissionDescription s = s <-> ~ known).
Proof.
  cbv zeta. unfold getPermissionIcon, getPermissionDescription.
  destruct (String.eqb_spec s "view_address") as [-> | H1].
  { cbn. repeat split; try discriminate; try tauto;
      intros; try discriminate; intuition discriminate. }
  destruct (String.eqb_spec s "view_balance") as [-> | H2].
  { cbn. repeat split; try discriminate; try tauto;
      intros; try discriminate; intuition discriminate. }
  destruct (String.eqb_spec s "call_methods") as [-> | H3].
  { cbn. repeat split; try discriminate; try tauto;
      intros; try discriminate; intuition discriminate. }
  cbn. repeat split; try discriminate; try tauto; intros; tauto.
Qed.

(** X16.  The component never checks that the selected wallet is one of
    the listed wallets.  If the selection has an address that no entry of
    the list has, no row is shown as selected, yet (when idle) both
    buttons are enabled and a click on Connect calls [onApprove] with that
    wallet. *)
Theorem selection_outside_list
    (p : DAppConnectionProps) (st : State) (w : Wallet) :
  selectedWallet p = Some w ->
  (forall v, In v (wallets p) -> address v <> address w) ->
  isProcessing st = false ->
  Forall (fun row => has_selected_style row = false /\
                     has_check_mark row = false)
         (wallet_rows (DAppConnection p st)) /\
  map disabled (action_buttons (DAppConnection p st)) = [false; false] /\
  approve_calls (trace (dispatch p ClickConnect st)) = [w].
Proof.
  intros Hsel Hout Hidle. split; [|split].
  - rewrite wallet_rows_DAppConnection, Forall_forall.
    intros row Hrow. apply elem_of_lookup_imap_1 in Hrow.
    destruct Hrow as (i & v & -> & Hv).
    assert (Hne : isSelected p v = false).
    { unfold isSelected. rewrite Hsel. apply String.eqb_neq.
      intros E. apply (Hout v); [|now symmetry].
      apply list_elem_of_In, list_elem_of_lookup. eauto. }
    unfold has_selected_style, has_check_mark, walletRow, prop.
    rewrite Hne. split; reflexivity.
  - rewrite action_buttons_DAppConnection. unfold disabled, prop. cbn.
    rewrite Hidle, Hsel. reflexivity.
  - rewrite dispatch_connect, Hidle, Hsel, (run_handleApprove p st w Hsel).
    destruct (onApprove p w); reflexivity.
Qed.

Lemma selection_outside_list_witness :
  let p := sampleProps (Some strayWallet) (Returns Undefined) in
  selectedWallet p = Some strayWallet /\
  (forall v, In v (wallets p) -> address v <> address strayWallet) /\
  isProcessing initialState = false /\
  approve_calls (trace (dispatch p ClickConnect initialState))
  = [strayWallet].
Proof.
  cbv zeta.
  assert (H : forall v,
             In v (wallets (sampleProps (Some strayWallet)
                                        (Returns Undefined))) ->
             address v <> address strayWallet).
  { intros v Hin. simpl in Hin.
    destruct Hin as [<- | [<- | [<- | []]]]; discriminate. }
  split; [reflexivity|]. split; [exact H|]. split; [reflexivity|].
  apply (selection_outside_list
           (sampleProps (Some strayWallet) (Returns Undefined))
           initialState strayWallet eq_refl H eq_refl).
Defined.

(** X17.  A click on Cancel in an idle dialog is final, whether [onReject]
    returns or throws: [onReject] has been called once, and whatever is
    clicked afterwards and whatever props the parent passes, [onApprove]
    is never called, no notification is shown and the processing flag
    stays set. *)
Theorem cancel_is_final
    (p : DAppConnectionProps)
    (evs : list (DAppConnectionProps * UserEvent)) (st : State) :
  isProcessing st = false ->
  let r := session ((p, ClickCancel) :: evs) st in
  isProcessing (fst r) = true /\
  reject_calls (snd r) = 1%nat /\
  approve_calls (snd r) = [] /\
  toasts (snd r) = [].
Proof.
  intros Hidle r. subst r. session_step.
  rewrite dispatch_cancel, Hidle, run_handleReject. cbn [final trace].
  destruct (session_while_processing evs {| isProcessing := true |} eq_refl)
    as (-> & -> & -> & -> & _).
  repeat split.
Qed.

Lemma cancel_is_final_witness :
  let evs := [(sampleProps (Some wallet0) (Returns Undefined), ClickConnect);
              (iconProps, ClickCancel)] in
  isProcessing initialState = false /\
  onReject iconProps = Throws "port closed" /\
  reject_calls (snd (session ((iconProps, ClickCancel) :: evs) initialState))
  = 1%nat /\
  approve_calls (snd (session ((iconProps, ClickCancel) :: evs) initialState))
  = [].
Proof.
  cbv zeta. split; [reflexivity|]. split; [reflexivity|].
  pose proof (cancel_is_final iconProps
                [(sampleProps (Some wallet0) (Returns Undefined),
                  ClickConnect);
                 (iconProps, ClickCancel)]
                initialState eq_refl) as H.
  cbv zeta in H. destruct H as (_ & H2 & H3 & _). split; [exact H2 | exact H3].
Defined.
